(** * netdev.cisco.cisco_asa: prompt and context tracking of the Cisco ASA session

    A shallow embedding of [src/netdev/cisco/cisco_asa.py] (class [CiscoAsa]).

    - Python [str] values are [string]s (device prompts and commands are
      ASCII text); the operations of [str] that the class uses ([s[:-1]], [s[:12]], [sub in s], [s.split('/')],
      [tmpl.format(...)]) are the functions of module [PyStr].
    - [re.escape] (CPython 3.7 and later) is [Re.escape].
    - The base class [CiscoLikeDevice] is not part of the file; its methods
      are the fields of the class [CiscoLikeDevice] below, acting on an
      abstract transport state.
    - A coroutine is a computation in the monad [M]: it reads and updates the
      attributes of [self], returns or raises, and records the calls it makes
      to the base class in a trace.  The [logger] calls are left out: they
      neither read a result nor change an attribute. *)

From Stdlib Require Import String Ascii List Bool Arith Lia.
Import ListNotations.
Local Open Scope string_scope.
Local Open Scope list_scope.

Set Implicit Arguments.

(** ** Python string operations *)

Module PyStr.

(** [s[:-1]]: all characters but the last one; [''[:-1]] is ['']. *)
Fixpoint drop_last (s : string) : string :=
  match s with
  | EmptyString => EmptyString
  | String c EmptyString => EmptyString
  | String c s' => String c (drop_last s')
  end.

(** [s[:n]]: the first [n] characters, or all of [s] when it is shorter. *)
Fixpoint take (n : nat) (s : string) : string :=
  match n, s with
  | S n', String c s' => String c (take n' s')
  | _, _ => EmptyString
  end.

(** [s.startswith(p)] *)
Fixpoint startswith (p s : string) : bool :=
  match p, s with
  | EmptyString, _ => true
  | String a p', String b s' => Ascii.eqb a b && startswith p' s'
  | String _ _, EmptyString => false
  end.

(** [sub in s]: [sub] occurs in [s] as a contiguous substring. *)
Fixpoint str_in (sub s : string) : bool :=
  startswith sub s ||
  match s with
  | EmptyString => false
  | String _ s' => str_in sub s'
  end.

(** [s.count(c)] for a one-character [c]. *)
Fixpoint count (c : ascii) (s : string) : nat :=
  match s with
  | EmptyString => 0
  | String a s' => (if Ascii.eqb a c then 1 else 0) + count c s'
  end.

(** [s.split(sep)] for a one-character separator: the pieces between the
    occurrences of [sep], empty pieces kept; there is always one piece more
    than there are separators. *)
Fixpoint split (sep : ascii) (s : string) : list string :=
  match s with
  | EmptyString => [EmptyString]
  | String c s' =>
      if Ascii.eqb c sep then EmptyString :: split sep s'
      else match split sep s' with
           | piece :: rest => String c piece :: rest
           | [] => [String c EmptyString]
           end
  end.

(** What [tmpl.format(args...)] can raise. *)
Inductive format_error := FormatIndexError | FormatValueError.

(** [tmpl.format(args...)] for templates whose replacement fields are all the
    automatically numbered [{}]: each field takes the next argument
    ([IndexError] when none is left); arguments that are left over are
    ignored.  A brace that is not part of [{}] is a [ValueError] here (the
    doubled braces of Python are not needed by the class). *)
Fixpoint format (tmpl : string) (args : list string) : format_error + string :=
  match tmpl with
  | EmptyString => inr EmptyString
  | String c t =>
      if Ascii.eqb c "{" then
        match t with
        | String c' t' =>
            if Ascii.eqb c' "}" then
              match args with
              | a :: args' =>
                  match format t' args' with
                  | inr r => inr (a ++ r)%string
                  | inl e => inl e
                  end
              | [] => inl FormatIndexError
              end
            else inl FormatValueError
        | EmptyString => inl FormatValueError
        end
      else if Ascii.eqb c "}" then inl FormatValueError
      else
        match format t args with
        | inr r => inr (String c r)
        | inl e => inl e
        end
  end.

End PyStr.

(** ** The part of Python's [re] that the class relies on *)

Module Re.

(** The characters [re.escape] puts a backslash before (CPython 3.7 and
    later: [_special_chars_map], the characters that can have a special
    meaning in a regular expression):
    ( ) [ ] { } ? * + - | ^ $ \ . & ~ # space \t \n \r \v \f *)
Definition special_chars : list ascii :=
  ["("; ")"; "["; "]"; "{"; "}"; "?"; "*"; "+"; "-"; "|"; "^"; "$"; "\"; ".";
   "&"; "~"; "#"; " "; "009"; "010"; "013"; "011"; "012"]%char.

Definition is_special (c : ascii) : bool :=
  existsb (Ascii.eqb c) special_chars.

(** [re.escape(s)] *)
Fixpoint escape (s : string) : string :=
  match s with
  | EmptyString => EmptyString
  | String c s' =>
      if is_special c then String "\" (String c (escape s'))
      else String c (escape s')
  end.

(** Reading a pattern for its character classes.  Outside a class a
    backslash takes the next character with it and an unescaped [[] opens a
    class; inside a class a backslash makes the next character a literal
    member, an unescaped []] closes the class, and every other character is
    a member ([|] has no special meaning there).  [scan] returns the members
    of the class the pattern ends with, when it ends with one. *)
Inductive scan_state :=
| Outside (last : option (list ascii))
| Inside (members : list ascii).

Fixpoint scan (st : scan_state) (p : string) : option (list ascii) :=
  match p with
  | EmptyString =>
      match st with
      | Outside last => last
      | Inside _ => None
      end
  | String c p' =>
      match st with
      | Outside _ =>
          if Ascii.eqb c "\" then
            match p' with
            | String _ p'' => scan (Outside None) p''
            | EmptyString => None
            end
          else if Ascii.eqb c "[" then scan (Inside []) p'
          else scan (Outside None) p'
      | Inside ms =>
          if Ascii.eqb c "\" then
            match p' with
            | String d p'' => scan (Inside (ms ++ [d])) p''
            | EmptyString => None
            end
          else if Ascii.eqb c "]" then scan (Outside (Some ms)) p'
          else scan (Inside (ms ++ [c])) p'
      end
  end.

(** The members of the character class that closes the pattern. *)
Definition trailing_class (p : string) : option (list ascii) :=
  scan (Outside None) p.

End Re.

(** ** The session object and its base class *)

Section Session.

(** The state of the remote-shell transport, which the base class owns, and
    the errors its methods raise. *)
Variables W E : Type.

(** The attributes of a [CiscoAsa] object that the class reads or writes. *)
Record CiscoAsa := mkCiscoAsa {
  _host : string;
  _base_prompt : string;
  _base_pattern : string;
  _current_context : string;
  _multiple_mode : bool;
  _transport : W
}.

(** The methods inherited from [CiscoLikeDevice].  Each one sees the object
    as it is at the call and answers with a value or an error and the next
    transport state; none of them assigns an attribute of the object. *)
Class CiscoLikeDevice := {
  _establish_connection : CiscoAsa -> (E + unit) * W;
  _find_prompt : CiscoAsa -> (E + string) * W;
  _enable : CiscoAsa -> (E + unit) * W;
  _disable_paging : CiscoAsa -> (E + unit) * W;
  super_send_command : string -> bool -> bool -> CiscoAsa -> (E + string) * W
}.

Context {base : CiscoLikeDevice}.

(** Exceptions: the built-in ones the class itself can raise, and whatever
    the base class raised. *)
Inductive exn :=
| ValueError
| KeyError (key : string)
| IndexError
| BaseError (e : E).

Inductive outcome (A : Type) :=
| Returned (a : A)
| Raised (e : exn).

(** The calls to base-class methods, in the order they are made. *)
Inductive call :=
| EstablishConnection
| FindPrompt
| Enable
| DisablePaging
| SendCommand (command_string : string) (strip_prompt strip_command : bool).

(** What running a method gives: its outcome, the object afterwards (the
    assignments made before an exception stay), and the base-class calls. *)
Record run (A : Type) := mkRun {
  result : outcome A;
  self_after : CiscoAsa;
  calls : list call
}.

Definition M (A : Type) := CiscoAsa -> run A.

Definition ret {A} (a : A) : M A :=
  fun self => mkRun (Returned a) self [].

Definition bind {A B} (m : M A) (k : A -> M B) : M B :=
  fun self =>
    match m self with
    | mkRun (Returned a) self' cs =>
        match k a self' with
        | mkRun o self'' cs' => mkRun o self'' (cs ++ cs')
        end
    | mkRun (Raised _ e) self' cs => mkRun (Raised B e) self' cs
    end.

(** Attribute assignment, [self._attr = v]. *)
Definition with_transport (w : W) (self : CiscoAsa) : CiscoAsa :=
  mkCiscoAsa (_host self) (_base_prompt self) (_base_pattern self)
             (_current_context self) (_multiple_mode self) w.

Definition with_base_prompt (v : string) (self : CiscoAsa) : CiscoAsa :=
  mkCiscoAsa (_host self) v (_base_pattern self)
             (_current_context self) (_multiple_mode self) (_transport self).

Definition with_base_pattern (v : string) (self : CiscoAsa) : CiscoAsa :=
  mkCiscoAsa (_host self) (_base_prompt self) v
             (_current_context self) (_multiple_mode self) (_transport self).

Definition with_current_context (v : string) (self : CiscoAsa) : CiscoAsa :=
  mkCiscoAsa (_host self) (_base_prompt self) (_base_pattern self)
             v (_multiple_mode self) (_transport self).

Definition with_multiple_mode (v : bool) (self : CiscoAsa) : CiscoAsa :=
  mkCiscoAsa (_host self) (_base_prompt self) (_base_pattern self)
             (_current_context self) v (_transport self).

Definition assign (update : CiscoAsa -> CiscoAsa) : M unit :=
  fun self => mkRun (Returned tt) (update self) [].

Definition get {A} (attr : CiscoAsa -> A) : M A :=
  fun self => mkRun (Returned (attr self)) self [].

(** One recorded call of a base-class method; the transport moves on
    whether the method returns or raises. *)
Definition call_base {A} (c : call) (method : CiscoAsa -> (E + A) * W) : M A :=
  fun self =>
    match method self with
    | (inr a, w) => mkRun (Returned a) (with_transport w self) [c]
    | (inl e, w) => mkRun (Raised A (BaseError e)) (with_transport w self) [c]
    end.

Notation "x <- m ;; k" := (bind m (fun x => k))
  (at level 61, m at next level, right associativity).
Notation "m ;; k" := (bind m (fun _ => k))
  (at level 61, right associativity).

(** ** The class *)

(** [CiscoAsa.__init__]: [self] is the object as the constructor of the base
    class has left it; the subclass adds its two assignments. *)
Definition __init__ (self : CiscoAsa) : CiscoAsa :=
  with_multiple_mode false (with_current_context "system" self).

Definition current_context (self : CiscoAsa) : string := _current_context self.

Definition multiple_mode (self : CiscoAsa) : bool := _multiple_mode self.

(** The dictionary literal of [_get_default_command], in source order. *)
Definition command_mapper : list (string * string) :=
  [ ("delimeter1", ">");
    ("delimeter2", "#");
    ("pattern", "{}.*?(\(.*?\))?[{}|{}]");
    ("disable_paging", "terminal pager 0");
    ("priv_enter", "enable");
    ("priv_exit", "disable");
    ("config_enter", "conf t");
    ("config_exit", "end");
    ("config_check", ")#");
    ("check_config_mode", ")#") ].

(** [mapping[key]] *)
Fixpoint getitem (mapping : list (string * string)) (key : string) : outcome string :=
  match mapping with
  | [] => Raised string (KeyError key)
  | (k, v) :: rest => if String.eqb k key then Returned v else getitem rest key
  end.

Definition _get_default_command (command : string) : outcome string :=
  getitem command_mapper command.

(** A pure computation that may raise, run inside a method. *)
Definition lift {A} (o : outcome A) : M A :=
  fun self => mkRun o self [].

(** [a, b = pieces]: exactly two pieces, or [ValueError]. *)
Definition unpack2 (pieces : list string) : outcome (string * string) :=
  match pieces with
  | [a; b] => Returned (a, b)
  | _ => Raised (string * string) ValueError
  end.

Definition str_format (tmpl : string) (args : list string) : outcome string :=
  match PyStr.format tmpl args with
  | inr s => Returned s
  | inl PyStr.FormatIndexError => Raised string IndexError
  | inl PyStr.FormatValueError => Raised string ValueError
  end.

Definition _set_base_prompt : M string :=
  prompt <- call_base FindPrompt _find_prompt ;;
  let context := "system" in
  pc <- (if PyStr.str_in "/" prompt
         then lift (unpack2 (PyStr.split "/" (PyStr.drop_last prompt)))
         else ret (PyStr.drop_last prompt, context)) ;;
  let '(prompt, context) := pc in
  assign (with_base_prompt prompt) ;;
  assign (with_current_context context) ;;
  delimeter1 <- lift (_get_default_command "delimeter1") ;;
  delimeter2 <- lift (_get_default_command "delimeter2") ;;
  base_prompt <- get _base_prompt ;;
  pattern <- lift (str_format "{}.*(\/\w+)?(\(.*?\))?[{}|{}]"
                              [Re.escape (PyStr.take 12 base_prompt);
                               Re.escape delimeter1; Re.escape delimeter2]) ;;
  assign (with_base_pattern pattern) ;;
  get _base_prompt.

Definition send_command (command_string : string) (strip_prompt strip_command : bool)
  : M string :=
  output <- call_base (SendCommand command_string strip_prompt strip_command)
                      (super_send_command command_string strip_prompt strip_command) ;;
  (if PyStr.str_in "changet" command_string
   then _set_base_prompt ;; ret tt
   else ret tt) ;;
  ret output.

Definition _check_multiple_mode : M unit :=
  out <- send_command "show mode" true true ;;
  if PyStr.str_in "multiple" out then assign (with_multiple_mode true) else ret tt.

Definition connect : M unit :=
  call_base EstablishConnection _establish_connection ;;
  _set_base_prompt ;;
  call_base Enable _enable ;;
  call_base DisablePaging _disable_paging ;;
  _check_multiple_mode.

End Session.

Arguments Returned {E A} a.
Arguments Raised {E A} e.
Arguments ValueError {E}.
Arguments KeyError {E} key.
Arguments IndexError {E}.
Arguments getitem {E} mapping key.
Arguments _get_default_command {E} command.
Arguments unpack2 {E} pieces.
Arguments str_format {E} tmpl args.

(** ** Two views of [_set_base_prompt] used in the statements below *)

(** The branch [if '/' in prompt: ... else: ...] as a function of the raw
    prompt: the pair assigned to [prompt, context], or the exception of the
    unpacking. *)
Definition prompt_and_context {E} (raw : string) : outcome E (string * string) :=
  if PyStr.str_in "/" raw
  then unpack2 (PyStr.split "/" (PyStr.drop_last raw))
  else Returned (PyStr.drop_last raw, "system").

(** The right-hand side of the assignment to [_base_pattern], for the
    delimiters [d1] and [d2]. *)
Definition pattern_for (d1 d2 base_prompt : string) : string :=
  (Re.escape (PyStr.take 12 base_prompt) ++ ".*(\/\w+)?(\(.*?\))?["
   ++ Re.escape d1 ++ "|" ++ Re.escape d2 ++ "]")%string.

(** The last character of a string, and whether it is one of the two
    delimiters of the command mapper. *)
Fixpoint last_char (s : string) : option ascii :=
  match s with
  | EmptyString => None
  | String c EmptyString => Some c
  | String _ s' => last_char s'
  end.

Definition ends_with_delimiter (raw : string) : bool :=
  match last_char raw with
  | Some c => Ascii.eqb c ">" || Ascii.eqb c "#"
  | None => false
  end.

(** The base pattern of the object is the one its base prompt gives. *)
Definition pattern_consistent {W} (self : CiscoAsa W) : Prop :=
  _base_pattern self = pattern_for ">" "#" (_base_prompt self).

(** What follows the escaped prefix in every base pattern. *)
Definition pattern_tail : string := ".*(\/\w+)?(\(.*?\))?[>|\#]".

(** ** A scripted device, to run the class on concrete input *)

Module Scripted.

(** The transport state is the text the device has still to send, one entry
    per read: a prompt discovery or a command consumes the next entry, and
    a read from an exhausted script is a transport error. *)
Definition transport := list string.

Inductive error := EndOfScript.

Definition read (self : CiscoAsa transport) : (error + string) * transport :=
  match _transport self with
  | line :: rest => (inr line, rest)
  | [] => (inl EndOfScript, [])
  end.

Definition done (self : CiscoAsa transport) : (error + unit) * transport :=
  (inr tt, _transport self).

#[global] Instance device : CiscoLikeDevice transport error := {|
  _establish_connection := done;
  _find_prompt := read;
  _enable := done;
  _disable_paging := done;
  super_send_command := fun _ _ _ => read
|}.

(** A new object for host [fw], about to talk to the given script; the
    attributes that the subclass does not initialise start out empty. *)
Definition fresh (script : transport) : CiscoAsa transport :=
  __init__ (mkCiscoAsa "fw" EmptyString EmptyString EmptyString false script).

(** An object as an earlier session has left it: context [admin], multiple
    mode, and a pattern that is the one of its base prompt. *)
Definition used (script : transport) : CiscoAsa transport :=
  mkCiscoAsa "fw" "ciscoasa" "ciscoasa.*(\/\w+)?(\(.*?\))?[>|\#]" "admin" true script.

End Scripted.

(** * Properties *)

(** ** Facts about the string operations *)

Section StringFacts.

Import PyStr.

Lemma append_nil_r (s : string) : (s ++ EmptyString)%string = s.
Proof. induction s as [|c s IH]; simpl; [reflexivity | now rewrite IH]. Qed.

Lemma append_assoc (a b c : string) :
  ((a ++ b) ++ c)%string = (a ++ (b ++ c))%string.
Proof. induction a as [|x a IH]; simpl; [reflexivity | now rewrite IH]. Qed.

Lemma startswith_spec (p s : string) :
  startswith p s = true <-> exists post, s = (p ++ post)%string.
Proof.
  revert s; induction p as [|a p IH]; intros s; simpl.
  - split; [intros _; now exists s | reflexivity].
  - destruct s as [|b s].
    + split; [discriminate | intros [post H]; discriminate].
    + rewrite andb_true_iff, Ascii.eqb_eq, IH. split.
      * intros [-> [post ->]]. now exists post.
      * intros [post H]. injection H as -> ->. split; [reflexivity | now exists post].
Qed.

(** [sub in s] is the substring test. *)
Lemma str_in_spec (sub s : string) :
  str_in sub s = true <-> exists pre post, s = (pre ++ sub ++ post)%string.
Proof.
  induction s as [|c s IH].
  - simpl. rewrite orb_false_r, startswith_spec. split.
    + intros [post H]. now exists EmptyString, post.
    + intros [pre [post H]]. destruct pre; [now exists post | discriminate].
  - cbn [str_in]. rewrite orb_true_iff, startswith_spec, IH. split.
    + intros [[post H] | [pre [post H]]].
      * now exists EmptyString, post.
      * exists (String c pre), post. simpl. now rewrite H.
    + intros [pre [post H]]. destruct pre as [|x pre].
      * left. now exists post.
      * right. simpl in H. injection H as _ H. now exists pre, post.
Qed.

Lemma count_app (c : ascii) (a b : string) :
  count c (a ++ b) = count c a + count c b.
Proof. induction a as [|x a IH]; simpl; [reflexivity | rewrite IH; lia]. Qed.

(** For a single character, [c in s] says that [s.count(c)] is not zero. *)
Lemma str_in_char (c : ascii) (s : string) :
  str_in (String c EmptyString) s = negb (Nat.eqb (count c s) 0).
Proof.
  induction s as [|a s IH]; [reflexivity|].
  cbn [str_in startswith count]. rewrite IH, (Ascii.eqb_sym c a).
  destruct (Ascii.eqb a c); simpl; [reflexivity|].
  now destruct s.
Qed.

Lemma str_in_char_false (c : ascii) (s : string) :
  str_in (String c EmptyString) s = false <-> count c s = 0.
Proof.
  rewrite str_in_char, negb_false_iff. apply Nat.eqb_eq.
Qed.

Lemma str_in_char_true (c : ascii) (s : string) :
  str_in (String c EmptyString) s = true <-> count c s <> 0.
Proof.
  rewrite str_in_char, negb_true_iff. apply Nat.eqb_neq.
Qed.

Lemma drop_last_snoc (s : string) (c : ascii) :
  drop_last (s ++ String c EmptyString) = s.
Proof.
  induction s as [|a s IH]; [reflexivity|].
  simpl. rewrite IH. now destruct s.
Qed.

Lemma split_length (sep : ascii) (s : string) :
  length (split sep s) = S (count sep s).
Proof.
  induction s as [|a s IH]; [reflexivity|].
  simpl. destruct (Ascii.eqb a sep); simpl; [now rewrite IH|].
  destruct (split sep s); simpl in *; lia.
Qed.

Lemma split_no_sep (sep : ascii) (s : string) :
  count sep s = 0 -> split sep s = [s].
Proof.
  induction s as [|a s IH]; [reflexivity|].
  simpl. destruct (Ascii.eqb a sep); [discriminate|].
  intros H. now rewrite IH.
Qed.

Lemma split_app (sep : ascii) (a b : string) :
  count sep a = 0 -> split sep (a ++ String sep b) = a :: split sep b.
Proof.
  induction a as [|x a IH]; simpl.
  - intros _. now rewrite Ascii.eqb_refl.
  - destruct (Ascii.eqb x sep); [discriminate|].
    intros H. now rewrite IH.
Qed.

(** A string with exactly one separator is the text before it, the
    separator, and the text after it. *)
Lemma count_one_parts (sep : ascii) (s : string) :
  count sep s = 1 ->
  exists a b, s = (a ++ String sep b)%string /\ count sep a = 0 /\ count sep b = 0.
Proof.
  induction s as [|x s IH]; [discriminate|].
  simpl. destruct (Ascii.eqb_spec x sep) as [->|Hne]; simpl.
  - intros H. exists EmptyString, s. repeat split. lia.
  - intros H. destruct (IH H) as [a [b [-> [Ha Hb]]]].
    exists (String x a), b. simpl.
    destruct (Ascii.eqb_spec x sep); [contradiction|]. now repeat split.
Qed.

End StringFacts.

(** ** Facts about patterns *)

Section PatternFacts.

Import Re.

Lemma not_special (c : ascii) :
  is_special c = false -> Ascii.eqb c "\" = false /\ Ascii.eqb c "[" = false.
Proof.
  unfold is_special, special_chars. cbn [existsb].
  rewrite !orb_false_iff. tauto.
Qed.

(** An escaped text opens no character class and leaves no backslash
    dangling: the reader is back outside a class after it. *)
Lemma scan_escape (s rest : string) (last : option (list ascii)) :
  rest <> EmptyString ->
  scan (Outside last) (escape s ++ rest) = scan (Outside None) rest.
Proof.
  intros Hrest. revert last. induction s as [|c s IH]; intros last.
  - destruct rest; [contradiction | reflexivity].
  - cbn [escape]. destruct (is_special c) eqn:Hc.
    + cbn [append scan]. rewrite Ascii.eqb_refl. apply IH.
    + destruct (not_special c Hc) as [H1 H2].
      cbn [append scan]. rewrite H1, H2. apply IH.
Qed.

(** The template of [_set_base_prompt], filled in. *)
Lemma format_template (a b c : string) :
  PyStr.format "{}.*(\/\w+)?(\(.*?\))?[{}|{}]" [a; b; c]
  = inr (a ++ ".*(\/\w+)?(\(.*?\))?[" ++ b ++ "|" ++ c ++ "]")%string.
Proof. reflexivity. Qed.

End PatternFacts.

(** ** The prompt parser *)

Section Parser.

Variables W E : Type.
Context {base : CiscoLikeDevice W E}.

Import PyStr.
Local Open Scope string_scope.

Lemma drop_last_count (c : ascii) (s : string) :
  count c (drop_last s) <= count c s.
Proof.
  induction s as [|a s IH]; [apply le_n|].
  destruct s as [|b s]; [simpl; lia|].
  change (drop_last (String a (String b s))) with (String a (drop_last (String b s))).
  cbn [count] in *. lia.
Qed.

(** One run of [_set_base_prompt]: a single prompt discovery, then either
    the exception of the unpacking with no attribute assigned, or the three
    assignments. *)
Lemma set_base_prompt_run (self : CiscoAsa W) :
  _set_base_prompt self =
  let answer := _find_prompt self in
  let self1 := with_transport (snd answer) self in
  match fst answer with
  | inl e => mkRun (Raised (BaseError e)) self1 [FindPrompt]
  | inr raw =>
      match prompt_and_context raw with
      | Raised e => mkRun (Raised e) self1 [FindPrompt]
      | Returned (prompt, context) =>
          mkRun (Returned prompt)
                (with_base_pattern (pattern_for ">" "#" prompt)
                   (with_current_context context (with_base_prompt prompt self1)))
                [FindPrompt]
      end
  end.
Proof.
  unfold _set_base_prompt, bind, call_base, prompt_and_context.
  destruct (_find_prompt self) as [[e | raw] w]; cbn [fst snd]; [reflexivity|].
  destruct (str_in "/" raw).
  - unfold lift.
    destruct (unpack2 (split "/" (drop_last raw))) as [[prompt context] | e];
      [|reflexivity].
    unfold assign, get, ret. cbn -[Re.escape PyStr.format PyStr.take].
    unfold str_format. rewrite format_template. reflexivity.
  - unfold lift, assign, get, ret. cbn -[Re.escape PyStr.format PyStr.take].
    unfold str_format. rewrite format_template. reflexivity.
Qed.

Lemma prompt_and_context_no_slash (raw : string) :
  str_in "/" raw = false ->
  @prompt_and_context E raw = Returned (drop_last raw, "system"%string).
Proof. unfold prompt_and_context. now intros ->. Qed.

Lemma prompt_and_context_one_slash (raw name ctx : string) :
  drop_last raw = (name ++ String "/" ctx)%string ->
  count "/" name = 0 -> count "/" ctx = 0 ->
  @prompt_and_context E raw = Returned (name, ctx).
Proof.
  intros Hraw Hname Hctx. unfold prompt_and_context.
  assert (Hin : str_in "/" raw = true).
  { apply str_in_char_true. pose proof (drop_last_count "/" raw) as Hle.
    rewrite Hraw, count_app in Hle. cbn in Hle. lia. }
  rewrite Hin, Hraw, split_app, split_no_sep by assumption. reflexivity.
Qed.

Lemma prompt_and_context_many_slashes (raw : string) :
  str_in "/" raw = true -> count "/" (drop_last raw) <> 1 ->
  @prompt_and_context E raw = Raised ValueError.
Proof.
  intros Hin Hcount. unfold prompt_and_context. rewrite Hin.
  pose proof (split_length "/" (drop_last raw)) as Hlen.
  destruct (split "/" (drop_last raw)) as [|a [|b [|c rest]]];
    cbn in Hlen |- *; try reflexivity.
  exfalso. apply Hcount. lia.
Qed.

(** The class the pattern ends with, whatever the base prompt. *)
Lemma trailing_class_pattern_for (base_prompt : string) :
  Re.trailing_class (pattern_for ">" "#" base_prompt)
  = Some [">"; "|"; "#"]%char.
Proof.
  unfold Re.trailing_class, pattern_for.
  rewrite scan_escape by discriminate. reflexivity.
Qed.

(** C7. A raw prompt [NAME#] or [NAME>] whose [NAME] has no slash: the
    parser returns, the base prompt is [NAME] (the raw prompt without its
    last character) and the context is ["system"]. *)
Theorem set_base_prompt_no_slash
    (self : CiscoAsa W) (name : string) (delim : ascii) (w : W) :
  delim = "#"%char \/ delim = ">"%char ->
  str_in "/" name = false ->
  _find_prompt self = (inr (name ++ String delim EmptyString), w) ->
  let r := _set_base_prompt self in
  result r = Returned name /\
  _base_prompt (self_after r) = name /\
  _current_context (self_after r) = "system"%string.
Proof.
  intros Hdelim Hname Hfind r. subst r.
  rewrite set_base_prompt_run, Hfind. cbn [fst snd].
  rewrite prompt_and_context_no_slash, drop_last_snoc.
  - now repeat split.
  - apply str_in_char_false. rewrite count_app.
    apply str_in_char_false in Hname. rewrite Hname.
    destruct Hdelim as [-> | ->]; reflexivity.
Qed.

(** C1, as the code has it.  When the raw prompt without its last character
    has exactly one slash, the parser returns, the base prompt is the text
    before that slash and the context is the text after it; so a raw prompt
    [NAME/CTX#] with no slash in [NAME] or [CTX] gives base prompt [NAME]
    and context [CTX]. *)
Theorem set_base_prompt_one_slash (self : CiscoAsa W) (raw : string) (w : W) :
  _find_prompt self = (inr raw, w) ->
  let r := _set_base_prompt self in
  (count "/" (drop_last raw) = 1 ->
   exists name ctx,
     drop_last raw = (name ++ "/" ++ ctx)%string /\
     str_in "/" ctx = false /\
     result r = Returned name /\
     _base_prompt (self_after r) = name /\
     _current_context (self_after r) = ctx) /\
  (forall name ctx last,
     str_in "/" name = false -> str_in "/" ctx = false ->
     raw = (name ++ "/" ++ ctx ++ String last EmptyString)%string ->
     result r = Returned name /\
     _base_prompt (self_after r) = name /\
     _current_context (self_after r) = ctx).
Proof.
  intros Hfind r. subst r.
  rewrite set_base_prompt_run, Hfind. cbn [fst snd].
  assert (Hparts : forall name ctx,
             drop_last raw = (name ++ String "/" ctx)%string ->
             count "/" name = 0 -> count "/" ctx = 0 ->
             let r := match @prompt_and_context E raw with
                      | Raised e => mkRun (Raised e) (with_transport w self) [FindPrompt]
                      | Returned (prompt, context) =>
                          mkRun (Returned prompt)
                            (with_base_pattern (pattern_for ">" "#" prompt)
                               (with_current_context context
                                  (with_base_prompt prompt (with_transport w self))))
                            [FindPrompt]
                      end in
             result r = Returned name /\
             _base_prompt (self_after r) = name /\
             _current_context (self_after r) = ctx).
  { intros name ctx Hraw Hname Hctx.
    rewrite (prompt_and_context_one_slash raw name ctx Hraw Hname Hctx).
    now repeat split. }
  split.
  - intros Hone. destruct (count_one_parts _ _ Hone) as [name [ctx [Hraw [Hname Hctx]]]].
    exists name, ctx. split; [exact Hraw|].
    split; [now apply str_in_char_false|].
    exact (Hparts name ctx Hraw Hname Hctx).
  - intros name ctx last Hname Hctx ->.
    apply Hparts.
    + replace (name ++ "/" ++ ctx ++ String last EmptyString)
        with ((name ++ String "/" ctx) ++ String last EmptyString)
        by (now rewrite append_assoc).
      apply drop_last_snoc.
    + now apply str_in_char_false.
    + now apply str_in_char_false.
Qed.

(** C2, as the code has it.  The parser tests no delimiter.  On the raw
    prompt that the discovery returned it succeeds exactly when the prompt
    has no slash, or has exactly one slash before its last character; the
    only exception it raises itself is the [ValueError] of the unpacking;
    and a prompt with no slash loses its last character, whatever the
    character is. *)
Theorem set_base_prompt_failure_paths (self : CiscoAsa W) (raw : string) (w : W) :
  _find_prompt self = (inr raw, w) ->
  let r := _set_base_prompt self in
  ((exists prompt, result r = Returned prompt) <->
   (str_in "/" raw = false \/ count "/" (drop_last raw) = 1)) /\
  (forall e, result r = Raised e -> e = ValueError) /\
  (str_in "/" raw = false -> result r = Returned (drop_last raw)).
Proof.
  intros Hfind r. subst r.
  rewrite set_base_prompt_run, Hfind. cbn [fst snd].
  destruct (str_in "/" raw) eqn:Hin.
  - destruct (Nat.eq_dec (count "/" (drop_last raw)) 1) as [Hone | Hmany].
    + destruct (count_one_parts _ _ Hone) as [name [ctx [Hraw [Hname Hctx]]]].
      rewrite (prompt_and_context_one_slash raw name ctx Hraw Hname Hctx).
      cbn [result]. repeat split; try discriminate.
      * intros _. now right.
      * intros _. now exists name.
    + rewrite (prompt_and_context_many_slashes raw Hin Hmany).
      cbn [result]. repeat split; try discriminate.
      * intros [prompt H]. discriminate.
      * intros [H | H]; [discriminate | contradiction].
      * intros e H. now injection H as <-.
  - rewrite (prompt_and_context_no_slash raw Hin).
    cbn [result]. repeat split; try discriminate.
    + intros _. now left.
    + intros _. now exists (drop_last raw).
Qed.

(** C5. After a successful [_set_base_prompt] the base pattern is the one
    derived from the base prompt and the two delimiters of the command
    mapper: the escaped first 12 characters of the base prompt, [.*], the
    optional context group, the optional parenthetical group, and a closing
    character class; both delimiters are members of that class. *)
Theorem set_base_prompt_pattern (self : CiscoAsa W) (prompt : string) :
  let r := _set_base_prompt self in
  result r = Returned prompt ->
  exists c1 c2 members,
    @_get_default_command E "delimeter1" = Returned (String c1 EmptyString) /\
    @_get_default_command E "delimeter2" = Returned (String c2 EmptyString) /\
    _base_pattern (self_after r)
    = (Re.escape (take 12 (_base_prompt (self_after r)))
       ++ ".*" ++ "(\/\w+)?" ++ "(\(.*?\))?"
       ++ "[" ++ Re.escape (String c1 EmptyString) ++ "|" ++ Re.escape (String c2 EmptyString) ++ "]")%string /\
    Re.trailing_class (_base_pattern (self_after r)) = Some members /\
    In c1 members /\ In c2 members.
Proof.
  intros r. subst r. rewrite set_base_prompt_run.
  destruct (_find_prompt self) as [[e | raw] w]; cbn [fst snd result]; [discriminate|].
  destruct (prompt_and_context raw) as [[p c] | e]; cbn [result self_after]; [|discriminate].
  intros _. exists ">"%char, "#"%char, [">"; "|"; "#"]%char.
  split; [reflexivity|]. split; [reflexivity|].
  split; [reflexivity|].
  split; [apply trailing_class_pattern_for|].
  cbn [In]. auto.
Qed.

(** C10. After a successful [_set_base_prompt] the character class that
    closes the base pattern has three members: the two delimiters and the
    bar written between them, which is a literal member inside a class. *)
Theorem set_base_prompt_pattern_bar (self : CiscoAsa W) (prompt : string) :
  let r := _set_base_prompt self in
  result r = Returned prompt ->
  exists members,
    Re.trailing_class (_base_pattern (self_after r)) = Some members /\
    In "|"%char members /\ In ">"%char members /\ In "#"%char members /\
    length members = 3.
Proof.
  intros r. subst r. rewrite set_base_prompt_run.
  destruct (_find_prompt self) as [[e | raw] w]; cbn [fst snd result]; [discriminate|].
  destruct (prompt_and_context raw) as [[p c] | e]; cbn [result self_after]; [|discriminate].
  intros _. exists [">"; "|"; "#"]%char.
  split; [apply trailing_class_pattern_for|].
  cbn [In length]. repeat split; auto.
Qed.

End Parser.

(** ** The command catalog *)

Section Catalog.

Variable E : Type.

Lemma getitem_missing (mapping : list (string * string)) (key : string) :
  ~ In key (map fst mapping) -> @getitem E mapping key = Raised (KeyError key).
Proof.
  induction mapping as [|[k v] rest IH]; intros Hnot; [reflexivity|].
  cbn [getitem]. destruct (String.eqb_spec k key) as [->|Hne].
  - exfalso. apply Hnot. now left.
  - apply IH. intros Hin. apply Hnot. now right.
Qed.

Lemma getitem_present (mapping : list (string * string)) (key : string) :
  In key (map fst mapping) ->
  exists v, In (key, v) mapping /\ @getitem E mapping key = Returned v.
Proof.
  induction mapping as [|[k v] rest IH]; intros Hin; [contradiction|].
  cbn [getitem]. destruct (String.eqb_spec k key) as [->|Hne].
  - exists v. split; [now left | reflexivity].
  - destruct Hin as [Hk | Hin]; [contradiction|].
    destruct (IH Hin) as [v' [Hv' Hget]]. exists v'. split; [now right | exact Hget].
Qed.

(** C8. The lookup depends on the name alone (it takes no object and makes
    no call); it gives [>] for [delimeter1] and [#] for [delimeter2], a
    value of the mapping for each of its keys, and for every other name it
    raises [KeyError], the exception of a missing dictionary key. *)
Theorem get_default_command_lookup :
  @_get_default_command E "delimeter1" = Returned ">"%string /\
  @_get_default_command E "delimeter2" = Returned "#"%string /\
  (forall name, In name (map fst command_mapper) ->
     exists v, In (name, v) command_mapper /\ @_get_default_command E name = Returned v) /\
  (forall name, ~ In name (map fst command_mapper) ->
     @_get_default_command E name = Raised (KeyError name)).
Proof.
  split; [reflexivity|]. split; [reflexivity|]. split.
  - intros name. apply getitem_present.
  - intros name. apply getitem_missing.
Qed.

End Catalog.

(** ** The session controller *)

Section Controller.

Variables W E : Type.
Context {base : CiscoLikeDevice W E}.

Import PyStr.
Local Open Scope string_scope.

Lemma set_base_prompt_calls (self : CiscoAsa W) :
  calls (_set_base_prompt self) = [FindPrompt].
Proof.
  rewrite set_base_prompt_run.
  destruct (_find_prompt self) as [[e | raw] w]; cbn [fst snd]; [reflexivity|].
  now destruct (prompt_and_context raw) as [[p c] | e].
Qed.

Lemma set_base_prompt_keeps_mode (self : CiscoAsa W) :
  _multiple_mode (self_after (_set_base_prompt self)) = _multiple_mode self.
Proof.
  rewrite set_base_prompt_run.
  destruct (_find_prompt self) as [[e | raw] w]; cbn [fst snd]; [reflexivity|].
  now destruct (prompt_and_context raw) as [[p c] | e].
Qed.

(** One run of [send_command]. *)
Lemma send_command_run (self : CiscoAsa W) (cmd : string) (sp sc : bool) :
  send_command cmd sp sc self =
  let this := SendCommand cmd sp sc in
  match super_send_command cmd sp sc self with
  | (inl e, w) => mkRun (Raised (BaseError e)) (with_transport w self) [this]
  | (inr output, w) =>
      if str_in "changet" cmd then
        let refresh := _set_base_prompt (with_transport w self) in
        mkRun match result refresh with
              | Returned _ => Returned output
              | Raised e => Raised e
              end
              (self_after refresh) [this; FindPrompt]
      else mkRun (Returned output) (with_transport w self) [this]
  end.
Proof.
  unfold send_command, bind, call_base.
  destruct (super_send_command cmd sp sc self) as [[e | output] w]; [reflexivity|].
  destruct (str_in "changet" cmd); [|reflexivity].
  cbv zeta. pose proof (set_base_prompt_calls (with_transport w self)) as Hcalls.
  destruct (_set_base_prompt (with_transport w self)) as [[p | e] self' cs];
    cbn in Hcalls |- *; now subst cs.
Qed.

(** One run of [_check_multiple_mode]: the command [show mode] goes through
    [send_command], which does not refresh the prompt for it. *)
Lemma check_multiple_mode_run (self : CiscoAsa W) :
  _check_multiple_mode self =
  let this := SendCommand "show mode" true true in
  match super_send_command "show mode" true true self with
  | (inl e, w) => mkRun (Raised (BaseError e)) (with_transport w self) [this]
  | (inr out, w) =>
      mkRun (Returned tt)
            (if str_in "multiple" out
             then with_multiple_mode true (with_transport w self)
             else with_transport w self)
            [this]
  end.
Proof.
  unfold _check_multiple_mode, bind. rewrite send_command_run.
  change (str_in "changet" "show mode") with false. cbv zeta.
  destruct (super_send_command "show mode" true true self) as [[e | out] w];
    [reflexivity|].
  now destruct (str_in "multiple" out).
Qed.

(** C3. [send_command] first calls the command-send primitive of the base
    class with the same arguments.  What it returns is the output of that
    call and nothing else.  When the primitive has answered, the prompt
    discovery and the parser run once more exactly when the command text
    contains ["changet"] somewhere, whether or not it changes a context;
    the refresh only leaves its effect on the object, and an exception it
    raises is passed on. *)
Theorem send_command_original_output
    (self : CiscoAsa W) (cmd : string) (sp sc : bool) (answer : E + string) (w : W) :
  super_send_command cmd sp sc self = (answer, w) ->
  let r := send_command cmd sp sc self in
  let refresh := _set_base_prompt (with_transport w self) in
  let marked := exists before after, cmd = before ++ "changet" ++ after in
  (forall output, result r = Returned output -> answer = inr output) /\
  (forall e, answer = inl e ->
     result r = Raised (BaseError e) /\
     calls r = [SendCommand cmd sp sc] /\
     self_after r = with_transport w self) /\
  (forall output, answer = inr output ->
     (In FindPrompt (calls r) <-> marked) /\
     (marked ->
        calls r = [SendCommand cmd sp sc; FindPrompt] /\
        self_after r = self_after refresh /\
        (forall prompt, result refresh = Returned prompt -> result r = Returned output) /\
        (forall e, result refresh = Raised e -> result r = Raised e)) /\
     (~ marked ->
        calls r = [SendCommand cmd sp sc] /\
        self_after r = with_transport w self /\
        result r = Returned output)).
Proof.
  intros Hsend r refresh marked. subst r refresh.
  rewrite send_command_run, Hsend. cbv zeta.
  assert (Hmark : str_in "changet" cmd = true <-> marked) by apply str_in_spec.
  destruct answer as [e | output].
  - split; [discriminate|]. split.
    + intros e' H. injection H as <-. now repeat split.
    + discriminate.
  - split.
    { intros output'. destruct (str_in "changet" cmd); cbn [result].
      - destruct (result (_set_base_prompt (with_transport w self)));
          [intros H; injection H as <-; reflexivity | discriminate].
      - intros H. injection H as <-. reflexivity. }
    split; [discriminate|].
    intros output' H. injection H as <-.
    destruct (str_in "changet" cmd) eqn:Hin; cbn [result calls self_after].
    + assert (Hm : marked) by now apply Hmark.
      split; [split; [intros _; exact Hm | intros _; cbn; auto]|].
      split; [|intros Hnot; contradiction].
      intros _. repeat split.
      * intros prompt ->. reflexivity.
      * intros e ->. reflexivity.
    + assert (Hm : ~ marked) by (intros Hm; apply Hmark in Hm; discriminate).
      split; [split; [|intros Hyes; contradiction]|].
      * cbn. intros [H | []]. discriminate.
      * split; [intros Hyes; contradiction|]. intros _. now repeat split.
Qed.

(** C9. The refresh of [send_command] does not look at [_multiple_mode]:
    with the attribute set either way, a command whose text contains
    ["changet"] and that the primitive has answered is followed by one
    prompt discovery and the parser, and the attribute keeps its value. *)
Theorem send_command_refresh_any_mode
    (self : CiscoAsa W) (mode : bool) (cmd : string) (sp sc : bool)
    (output : string) (w : W) :
  let self0 := with_multiple_mode mode self in
  str_in "changet" cmd = true ->
  super_send_command cmd sp sc self0 = (inr output, w) ->
  let r := send_command cmd sp sc self0 in
  calls r = [SendCommand cmd sp sc; FindPrompt] /\
  self_after r = self_after (_set_base_prompt (with_transport w self0)) /\
  _multiple_mode (self_after r) = mode.
Proof.
  intros self0 Hin Hsend r. subst r.
  rewrite send_command_run, Hsend, Hin. cbv zeta. cbn [calls self_after].
  repeat split. now rewrite set_base_prompt_keeps_mode.
Qed.

(** C4. On an object whose [_multiple_mode] is still [False],
    [_check_multiple_mode] sends ["show mode"] and nothing else, and when
    the command is answered [_multiple_mode] is [True] afterwards exactly
    when the answer contains ["multiple"]; the answer ["single"] leaves it
    [False]. *)
Theorem check_multiple_mode_iff (self : CiscoAsa W) (out : string) (w : W) :
  _multiple_mode self = false ->
  super_send_command "show mode" true true self = (inr out, w) ->
  let r := _check_multiple_mode self in
  result r = Returned tt /\
  calls r = [SendCommand "show mode" true true] /\
  (_multiple_mode (self_after r) = true <->
   exists before after, out = before ++ "multiple" ++ after) /\
  _multiple_mode (self_after r) = str_in "multiple" out /\
  (out = "single" -> _multiple_mode (self_after r) = false).
Proof.
  intros Hfresh Hsend r. subst r.
  rewrite check_multiple_mode_run, Hsend. cbv zeta. cbn [result calls self_after].
  assert (Hmode : _multiple_mode
                    (if str_in "multiple" out
                     then with_multiple_mode true (with_transport w self)
                     else with_transport w self) = str_in "multiple" out).
  { destruct (str_in "multiple" out); [reflexivity | exact Hfresh]. }
  repeat split.
  - rewrite Hmode. apply str_in_spec.
  - rewrite Hmode. apply str_in_spec.
  - exact Hmode.
  - intros ->. rewrite Hmode. reflexivity.
Qed.

(** C6, as the code has it.  [connect] makes the five steps in the order of
    the source: the connection, the prompt discovery with the parser, the
    privileged mode, the paging, and the mode check.  A step that raises
    ends the run with its exception, after the calls made so far and with
    no call repeated.  When every step returns, the three attributes of the
    prompt are those the parser assigned; the mode check has set
    [_multiple_mode] to [True] if the answer to ["show mode"] contains
    ["multiple"] and has left it as it was otherwise, so that
    [_multiple_mode] is the result of the check when it was [False] before
    [connect], as it is on a new object. *)
Theorem connect_in_order (self : CiscoAsa W) :
  let r := connect self in
  let a1 := _establish_connection self in
  let s1 := with_transport (snd a1) self in
  let r2 := _set_base_prompt s1 in
  let s2 := self_after r2 in
  let a3 := _enable s2 in
  let s3 := with_transport (snd a3) s2 in
  let a4 := _disable_paging s3 in
  let s4 := with_transport (snd a4) s3 in
  let a5 := super_send_command "show mode" true true s4 in
  let s5 := with_transport (snd a5) s4 in
  match fst a1 with
  | inl e =>
      result r = Raised (BaseError e) /\ self_after r = s1 /\
      calls r = [EstablishConnection]
  | inr _ =>
  match result r2 with
  | Raised e =>
      result r = Raised e /\ self_after r = s2 /\
      calls r = [EstablishConnection; FindPrompt]
  | Returned prompt =>
  match fst a3 with
  | inl e =>
      result r = Raised (BaseError e) /\ self_after r = s3 /\
      calls r = [EstablishConnection; FindPrompt; Enable]
  | inr _ =>
  match fst a4 with
  | inl e =>
      result r = Raised (BaseError e) /\ self_after r = s4 /\
      calls r = [EstablishConnection; FindPrompt; Enable; DisablePaging]
  | inr _ =>
  match fst a5 with
  | inl e =>
      result r = Raised (BaseError e) /\ self_after r = s5 /\
      calls r = [EstablishConnection; FindPrompt; Enable; DisablePaging;
                 SendCommand "show mode" true true]
  | inr out =>
      result r = Returned tt /\
      calls r = [EstablishConnection; FindPrompt; Enable; DisablePaging;
                 SendCommand "show mode" true true] /\
      _base_prompt (self_after r) = prompt /\
      _base_prompt (self_after r) = _base_prompt s2 /\
      _current_context (self_after r) = _current_context s2 /\
      _base_pattern (self_after r) = pattern_for ">" "#" prompt /\
      _multiple_mode (self_after r) = (_multiple_mode self || str_in "multiple" out)%bool /\
      (_multiple_mode self = false ->
       _multiple_mode (self_after r) = str_in "multiple" out) /\
      _transport (self_after r) = snd a5
  end end end end end.
Proof.
  cbv zeta. unfold connect, bind, call_base.
  destruct (_establish_connection self) as [[e1 | []] w1]; cbn [fst snd];
    [now repeat split|].
  pose proof (set_base_prompt_calls (with_transport w1 self)) as Hcalls.
  pose proof (set_base_prompt_keeps_mode (with_transport w1 self)) as Hmode.
  assert (Hparsed : forall prompt,
            result (_set_base_prompt (with_transport w1 self)) = Returned prompt ->
            _base_prompt (self_after (_set_base_prompt (with_transport w1 self))) = prompt /\
            _base_pattern (self_after (_set_base_prompt (with_transport w1 self)))
            = pattern_for ">" "#" prompt).
  { intros prompt. rewrite set_base_prompt_run.
    destruct (_find_prompt (with_transport w1 self)) as [[e | raw] w]; cbn [fst snd result];
      [discriminate|].
    destruct (prompt_and_context raw) as [[p c] | e]; cbn [result self_after];
      [|discriminate].
    intros H. injection H as <-. now split. }
  destruct (_set_base_prompt (with_transport w1 self)) as [[prompt | e2] s2 cs2];
    cbn [result self_after calls] in *; subst cs2; [|now repeat split].
  destruct (Hparsed prompt eq_refl) as [Hprompt Hpattern].
  destruct (_enable s2) as [[e3 | []] w3]; cbn [fst snd]; [now repeat split|].
  destruct (_disable_paging (with_transport w3 s2)) as [[e4 | []] w4]; cbn [fst snd];
    [now repeat split|].
  rewrite check_multiple_mode_run. cbv zeta.
  destruct (super_send_command "show mode" true true
              (with_transport w4 (with_transport w3 s2))) as [[e5 | out] w5];
    cbn [fst snd result self_after calls app]; [now repeat split|].
  destruct (str_in "multiple" out); cbn; rewrite ?orb_true_r, ?orb_false_r;
    repeat split; auto.
  intros Hnew. cbn in Hmode. congruence.
Qed.

End Controller.

(** ** Runs on the scripted device *)

Section Runs.

Import PyStr.
Local Open Scope string_scope.

(** Scenario A, through the theorem for C7. *)
Lemma set_base_prompt_no_slash_witness :
  let r := _set_base_prompt (Scripted.fresh ["ciscoasa#"]) in
  result r = Returned "ciscoasa" /\
  _base_prompt (self_after r) = "ciscoasa" /\
  _current_context (self_after r) = "system".
Proof.
  apply (@set_base_prompt_no_slash _ _ Scripted.device
           (Scripted.fresh ["ciscoasa#"]) "ciscoasa" "#"%char []).
  - left; reflexivity.
  - reflexivity.
  - reflexivity.
Defined.

(** Scenario B, through the theorem for C1. *)
Lemma set_base_prompt_one_slash_witness :
  let r := _set_base_prompt (Scripted.fresh ["ciscoasa/admin#"]) in
  result r = Returned "ciscoasa" /\
  _base_prompt (self_after r) = "ciscoasa" /\
  _current_context (self_after r) = "admin".
Proof.
  apply (proj2 (@set_base_prompt_one_slash _ _ Scripted.device
                  (Scripted.fresh ["ciscoasa/admin#"]) "ciscoasa/admin#" []
                  eq_refl)
               "ciscoasa" "admin" "#"%char).
  - reflexivity.
  - reflexivity.
  - reflexivity.
Defined.

(** A prompt with two slashes: the unpacking raises and nothing is
    assigned, so the context is not the text after the last slash. *)
Lemma set_base_prompt_two_slashes_counterexample :
  let raw := "fw/a/b#" in
  let r := _set_base_prompt (Scripted.fresh [raw]) in
  str_in "/" raw = true /\
  result r = Raised ValueError /\
  ~ (_current_context (self_after r) = "b" /\ _base_prompt (self_after r) = "fw/a").
Proof.
  split; [reflexivity|]. split; [reflexivity|].
  intros [H _]. vm_compute in H. discriminate.
Qed.

(** A prompt with no delimiter and no slash, through the theorem for C2:
    the parser returns and the last character is gone. *)
Lemma set_base_prompt_failure_paths_witness :
  let r := _set_base_prompt (Scripted.fresh ["ciscoasa"]) in
  ends_with_delimiter "ciscoasa" = false /\
  result r = Returned "ciscoas".
Proof.
  split; [reflexivity|].
  apply (proj2 (proj2 (@set_base_prompt_failure_paths _ _ Scripted.device
                         (Scripted.fresh ["ciscoasa"]) "ciscoasa" [] eq_refl))).
  reflexivity.
Defined.

(** The parser does not fail on a prompt that has no delimiter at its end,
    and it does fail on one that has. *)
Lemma set_base_prompt_delimiter_counterexample :
  (ends_with_delimiter "ciscoasa" = false /\
   result (_set_base_prompt (Scripted.fresh ["ciscoasa"])) = Returned "ciscoas") /\
  (ends_with_delimiter "fw/a/b#" = true /\
   result (_set_base_prompt (Scripted.fresh ["fw/a/b#"])) = Raised ValueError).
Proof. repeat split. Qed.

(** The pattern after Scenario B, through the theorem for C5. *)
Lemma set_base_prompt_pattern_witness :
  let r := _set_base_prompt (Scripted.fresh ["ciscoasa/admin#"]) in
  result r = Returned "ciscoasa" /\
  exists c1 c2 members,
    @_get_default_command Scripted.error "delimeter1" = Returned (String c1 EmptyString) /\
    @_get_default_command Scripted.error "delimeter2" = Returned (String c2 EmptyString) /\
    _base_pattern (self_after r)
    = (Re.escape (take 12 (_base_prompt (self_after r)))
       ++ ".*" ++ "(\/\w+)?" ++ "(\(.*?\))?"
       ++ "[" ++ Re.escape (String c1 EmptyString) ++ "|" ++ Re.escape (String c2 EmptyString) ++ "]") /\
    Re.trailing_class (_base_pattern (self_after r)) = Some members /\
    In c1 members /\ In c2 members.
Proof.
  split; [reflexivity|].
  apply (@set_base_prompt_pattern _ _ Scripted.device
           (Scripted.fresh ["ciscoasa/admin#"]) "ciscoasa").
  reflexivity.
Defined.

(** A prompt with a bracket in it and more than 12 characters, through the
    theorem for C10. *)
Lemma set_base_prompt_pattern_bar_witness :
  let r := _set_base_prompt (Scripted.fresh ["fw[1]-datacenter>"]) in
  _base_pattern (self_after r) = "fw\[1\]\-datace.*(\/\w+)?(\(.*?\))?[>|\#]" /\
  exists members,
    Re.trailing_class (_base_pattern (self_after r)) = Some members /\
    In "|"%char members /\ In ">"%char members /\ In "#"%char members /\
    length members = 3.
Proof.
  split; [reflexivity|].
  apply (@set_base_prompt_pattern_bar _ _ Scripted.device
           (Scripted.fresh ["fw[1]-datacenter>"]) "fw[1]-datacenter").
  reflexivity.
Defined.

(** Scenario E, through the theorem for C8. *)
Lemma get_default_command_lookup_witness :
  ~ In "reload" (map fst command_mapper) /\
  @_get_default_command Scripted.error "reload" = Raised (KeyError "reload").
Proof.
  assert (Hnot : ~ In "reload" (map fst command_mapper)).
  { cbn. intros H. repeat (destruct H as [H | H]; [discriminate|]). exact H. }
  split; [exact Hnot|].
  exact (proj2 (proj2 (proj2 (get_default_command_lookup Scripted.error))) "reload" Hnot).
Defined.

(** Scenario C, through the theorem for C3: the command is answered with
    the output [done], then the prompt is read again; the value returned is
    the output, not the base prompt that the refresh returns. *)
Lemma send_command_original_output_witness :
  let self := Scripted.fresh ["done"; "ciscoasa/admin#"] in
  let r := send_command "changeto context admin" true true self in
  result r = Returned "done" /\
  calls r = [SendCommand "changeto context admin" true true; FindPrompt] /\
  _base_prompt (self_after r) = "ciscoasa" /\
  _current_context (self_after r) = "admin".
Proof.
  intros self r.
  destruct (proj1 (proj2 (proj2 (proj2
              (@send_command_original_output _ _ Scripted.device self
                 "changeto context admin" true true (inr "done") ["ciscoasa/admin#"]
                 eq_refl))
              "done" eq_refl))
            (ex_intro _ EmptyString (ex_intro _ "o context admin" eq_refl)))
    as [Hcalls [Hafter [Hreturned _]]].
  split; [exact (Hreturned "ciscoasa" eq_refl)|].
  split; [exact Hcalls|].
  fold r in Hafter. rewrite Hafter. split; reflexivity.
Defined.

(** The same command on an object in single mode, through the theorem for
    C9. *)
Lemma send_command_refresh_any_mode_witness :
  let self := Scripted.fresh ["done"; "ciscoasa/admin#"] in
  let r := send_command "changeto context admin" true true
             (with_multiple_mode false self) in
  calls r = [SendCommand "changeto context admin" true true; FindPrompt] /\
  self_after r
  = self_after (_set_base_prompt
                  (with_transport ["ciscoasa/admin#"] (with_multiple_mode false self))) /\
  _multiple_mode (self_after r) = false.
Proof.
  intros self.
  apply (@send_command_refresh_any_mode _ _ Scripted.device self false
           "changeto context admin" true true "done" ["ciscoasa/admin#"]).
  - reflexivity.
  - reflexivity.
Defined.

(** Scenario D, through the theorem for C4. *)
Lemma check_multiple_mode_iff_witness :
  let out := "Security context mode: multiple" in
  let r := _check_multiple_mode (Scripted.fresh [out]) in
  result r = Returned tt /\
  calls r = [SendCommand "show mode" true true] /\
  (_multiple_mode (self_after r) = true <->
   exists before after, out = before ++ "multiple" ++ after) /\
  _multiple_mode (self_after r) = str_in "multiple" out /\
  (out = "single" -> _multiple_mode (self_after r) = false).
Proof.
  intros out.
  apply (@check_multiple_mode_iff _ _ Scripted.device (Scripted.fresh [out]) out []).
  - reflexivity.
  - reflexivity.
Defined.

(** The answer [single] of a device in single mode. *)
Example check_multiple_mode_single :
  let r := _check_multiple_mode (Scripted.fresh ["Security context mode: single"]) in
  result r = Returned tt /\ _multiple_mode (self_after r) = false.
Proof. split; reflexivity. Qed.

(** A first [connect] of a new object, through the theorem for C6: the
    five calls in order, and the mode check's result in [_multiple_mode]. *)
Lemma connect_in_order_witness :
  let out := "Security context mode: multiple" in
  let r := connect (Scripted.fresh ["ciscoasa/admin>"; out]) in
  result r = Returned tt /\
  calls r = [EstablishConnection; FindPrompt; Enable; DisablePaging;
             SendCommand "show mode" true true] /\
  _base_prompt (self_after r) = "ciscoasa" /\
  _multiple_mode (self_after r) = str_in "multiple" out.
Proof.
  intros out r.
  pose proof (@connect_in_order _ _ Scripted.device
                (Scripted.fresh ["ciscoasa/admin>"; out])) as H.
  cbv zeta in H. fold r in H.
  change (result r = Returned tt /\
          calls r = [EstablishConnection; FindPrompt; Enable; DisablePaging;
                     SendCommand "show mode" true true] /\
          _base_prompt (self_after r) = "ciscoasa" /\
          _base_prompt (self_after r) = "ciscoasa" /\
          _current_context (self_after r) = "admin" /\
          _base_pattern (self_after r) = pattern_for ">" "#" "ciscoasa" /\
          _multiple_mode (self_after r) = (false || str_in "multiple" out)%bool /\
          (false = false -> _multiple_mode (self_after r) = str_in "multiple" out) /\
          _transport (self_after r) = []) in H.
  destruct H as [Hresult [Hcalls [Hprompt [_ [_ [_ [_ [Hmode _]]]]]]]].
  split; [exact Hresult|]. split; [exact Hcalls|]. split; [exact Hprompt|].
  exact (Hmode eq_refl).
Defined.

(** A second [connect] of an object that an earlier session left in
    multiple mode, to a device that now answers [single]: every step
    returns, the mode check finds no ["multiple"], and [_multiple_mode] is
    [True] all the same, which is not the result of the check. *)
Lemma connect_stale_mode_counterexample :
  let out := "Security context mode: single" in
  let r := connect (Scripted.used ["ciscoasa>"; out]) in
  result r = Returned tt /\
  calls r = [EstablishConnection; FindPrompt; Enable; DisablePaging;
             SendCommand "show mode" true true] /\
  str_in "multiple" out = false /\
  _multiple_mode (self_after r) = true /\
  _multiple_mode (self_after r) <> str_in "multiple" out.
Proof.
  repeat split. vm_compute. discriminate.
Qed.

(** A whole [connect] on a device in multiple mode, and one whose prompt
    discovery finds nothing to read. *)
Example connect_scripted :
  let r := connect (Scripted.fresh ["ciscoasa/admin>"; "Security context mode: multiple"]) in
  result r = Returned tt /\
  calls r = [EstablishConnection; FindPrompt; Enable; DisablePaging;
             SendCommand "show mode" true true] /\
  self_after r
  = mkCiscoAsa "fw" "ciscoasa" "ciscoasa.*(\/\w+)?(\(.*?\))?[>|\#]" "admin" true [].
Proof. repeat split. Qed.

Example connect_scripted_failure :
  let r := connect (Scripted.fresh []) in
  result r = Raised (BaseError Scripted.EndOfScript) /\
  calls r = [EstablishConnection; FindPrompt] /\
  self_after r = Scripted.fresh [].
Proof. repeat split. Qed.

End Runs.

(** * Further properties of the class *)

(** ** More facts about strings and escaping *)

Section MoreStringFacts.

Import PyStr.
Local Open Scope string_scope.

Lemma length_append (a b : string) :
  String.length (a ++ b) = String.length a + String.length b.
Proof. induction a as [|x a IH]; simpl; [reflexivity | now rewrite IH]. Qed.

Lemma length_take (n : nat) (s : string) : String.length (take n s) <= n.
Proof.
  revert s; induction n as [|n IH]; intros [|c s]; simpl; try lia.
  specialize (IH s). lia.
Qed.

Lemma length_escape (s : string) :
  String.length s <= String.length (Re.escape s) <= 2 * String.length s.
Proof.
  induction s as [|c s IH]; simpl; [lia|].
  destruct (Re.is_special c); simpl; lia.
Qed.

Lemma append_cancel_r (a b s : string) : a ++ s = b ++ s -> a = b.
Proof.
  revert b; induction a as [|x a IH]; intros [|y b] H.
  - reflexivity.
  - exfalso. apply (f_equal String.length) in H.
    simpl in H. rewrite length_append in H. lia.
  - exfalso. apply (f_equal String.length) in H.
    simpl in H. rewrite length_append in H. lia.
  - simpl in H. injection H as -> H. f_equal. now apply IH.
Qed.

Lemma backslash_special : Re.is_special "\" = true.
Proof. reflexivity. Qed.

(** Escaping loses nothing: two texts with the same escaped form are the
    same text. *)
Lemma escape_inj (s t : string) : Re.escape s = Re.escape t -> s = t.
Proof.
  revert t; induction s as [|c s IH]; intros [|d t]; cbn [Re.escape].
  - reflexivity.
  - destruct (Re.is_special d); discriminate.
  - destruct (Re.is_special c); discriminate.
  - destruct (Re.is_special c) eqn:Hc, (Re.is_special d) eqn:Hd; intros H.
    + injection H as -> H. f_equal. now apply IH.
    + injection H as <- _. rewrite backslash_special in Hd. discriminate.
    + injection H as -> _. rewrite backslash_special in Hc. discriminate.
    + injection H as -> H. f_equal. now apply IH.
Qed.

(** A text with no special character is its own escaped form. *)
Lemma escape_plain (s : string) :
  forallb (fun c => negb (Re.is_special c)) (list_ascii_of_string s) = true ->
  Re.escape s = s.
Proof.
  induction s as [|c s IH]; [reflexivity|].
  cbn [list_ascii_of_string forallb Re.escape].
  rewrite andb_true_iff, negb_true_iff. intros [-> Hs]. now rewrite IH.
Qed.

Lemma drop_last_last_char (s : string) (c : ascii) :
  last_char s = Some c -> s = drop_last s ++ String c EmptyString.
Proof.
  induction s as [|a s IH]; [discriminate|].
  destruct s as [|b s].
  - simpl. now intros [= ->].
  - intros H.
    change (drop_last (String a (String b s))) with (String a (drop_last (String b s))).
    simpl append. f_equal. apply IH. exact H.
Qed.

Lemma last_char_some (s : string) :
  s <> EmptyString -> exists c, last_char s = Some c.
Proof.
  induction s as [|a s IH]; [contradiction|]. intros _.
  destruct s as [|b s]; [now exists a|].
  destruct IH as [c Hc]; [discriminate|]. now exists c.
Qed.

Lemma drop_last_no_char (c : ascii) (s : string) :
  str_in (String c EmptyString) s = false ->
  str_in (String c EmptyString) (drop_last s) = false.
Proof.
  rewrite !str_in_char_false. intros H.
  pose proof (drop_last_count c s). lia.
Qed.

End MoreStringFacts.

(** ** More about the prompt parser *)

Section MoreParser.

Variables W E : Type.
Context {base : CiscoLikeDevice W E}.

Import PyStr.
Local Open Scope string_scope.

(** The two ways the branch on the slash can give a pair. *)
Lemma prompt_and_context_returned (raw prompt context : string) :
  @prompt_and_context E raw = Returned (prompt, context) ->
  (str_in "/" raw = false /\ prompt = drop_last raw /\ context = "system") \/
  (str_in "/" raw = true /\ drop_last raw = prompt ++ String "/" context /\
   count "/" prompt = 0 /\ count "/" context = 0).
Proof.
  destruct (str_in "/" raw) eqn:Hin.
  - destruct (Nat.eq_dec (count "/" (drop_last raw)) 1) as [Hone | Hmany].
    + destruct (count_one_parts _ _ Hone) as [name [ctx [Hraw [Hname Hctx]]]].
      rewrite (prompt_and_context_one_slash E raw name ctx Hraw Hname Hctx).
      intros [= <- <-]. right. now repeat split.
    + rewrite (prompt_and_context_many_slashes E raw Hin Hmany). discriminate.
  - rewrite (prompt_and_context_no_slash E raw Hin).
    intros [= <- <-]. left. now repeat split.
Qed.

(** X1. A run of the parser that raises has assigned nothing: the object is as
    it was, but for the transport, which the prompt discovery has moved. *)
Theorem set_base_prompt_failure_keeps_attributes (self : CiscoAsa W) (e : exn E) :
  let r := _set_base_prompt self in
  result r = Raised e ->
  self_after r = with_transport (snd (_find_prompt self)) self /\
  _base_prompt (self_after r) = _base_prompt self /\
  _base_pattern (self_after r) = _base_pattern self /\
  _current_context (self_after r) = _current_context self /\
  _multiple_mode (self_after r) = _multiple_mode self /\
  _host (self_after r) = _host self.
Proof.
  intros r. subst r. rewrite set_base_prompt_run. cbv zeta.
  destruct (_find_prompt self) as [[e' | raw] w]; cbn [fst snd];
    [intros _; now repeat split|].
  destruct (prompt_and_context raw) as [[p c] | e'']; cbn [result self_after];
    [discriminate|].
  intros _. now repeat split.
Qed.

(** X2. What a successful run of the parser leaves in the three prompt
    attributes, and what it returns, depends on the raw prompt alone: two
    objects, whatever their attributes were, end with the same base prompt,
    context and pattern when the discovery gave them the same raw prompt. *)
Theorem set_base_prompt_depends_on_raw_only
    (self1 self2 : CiscoAsa W) (raw : string) (w1 w2 : W) :
  _find_prompt self1 = (inr raw, w1) ->
  _find_prompt self2 = (inr raw, w2) ->
  let r1 := _set_base_prompt self1 in
  let r2 := _set_base_prompt self2 in
  result r1 = result r2 /\
  (forall prompt, result r1 = Returned prompt ->
     _base_prompt (self_after r1) = _base_prompt (self_after r2) /\
     _current_context (self_after r1) = _current_context (self_after r2) /\
     _base_pattern (self_after r1) = _base_pattern (self_after r2)).
Proof.
  intros H1 H2 r1 r2. subst r1 r2.
  rewrite !set_base_prompt_run, H1, H2. cbv zeta. cbn [fst snd].
  destruct (prompt_and_context raw) as [[p c] | e]; cbn [result self_after].
  - split; [reflexivity|]. intros _ _. now repeat split.
  - split; [reflexivity|]. discriminate.
Qed.

(** X3. After a successful run the value returned is the base prompt stored,
    and neither the base prompt nor the context has a slash in it. *)
Theorem set_base_prompt_parts_have_no_slash (self : CiscoAsa W) (prompt : string) :
  let r := _set_base_prompt self in
  result r = Returned prompt ->
  _base_prompt (self_after r) = prompt /\
  str_in "/" (_base_prompt (self_after r)) = false /\
  str_in "/" (_current_context (self_after r)) = false.
Proof.
  intros r. subst r. rewrite set_base_prompt_run. cbv zeta.
  destruct (_find_prompt self) as [[e | raw] w]; cbn [fst snd result]; [discriminate|].
  destruct (prompt_and_context raw) as [[p c] | e] eqn:Hpc; cbn [result self_after];
    [|discriminate].
  intros [= <-]. cbn.
  destruct (prompt_and_context_returned raw Hpc)
    as [[Hin [-> ->]] | [Hin [Hraw [Hp Hc]]]].
  - repeat split. now apply drop_last_no_char.
  - repeat split; now apply str_in_char_false.
Qed.

(** X4. The raw prompt can be put together again from what the parser stored:
    the base prompt, then the slash and the context when the prompt had a
    slash, then the character that was cut off. *)
Theorem set_base_prompt_round_trip
    (self : CiscoAsa W) (raw prompt : string) (w : W) (last : ascii) :
  _find_prompt self = (inr raw, w) ->
  last_char raw = Some last ->
  let r := _set_base_prompt self in
  result r = Returned prompt ->
  raw = (if str_in "/" raw
         then prompt ++ "/" ++ _current_context (self_after r) ++ String last EmptyString
         else prompt ++ String last EmptyString).
Proof.
  intros Hfind Hlast r. subst r. rewrite set_base_prompt_run, Hfind. cbv zeta.
  cbn [fst snd].
  destruct (prompt_and_context raw) as [[p c] | e] eqn:Hpc; cbn [result self_after];
    [|discriminate].
  intros [= <-]. cbn.
  rewrite (drop_last_last_char raw Hlast) at 1.
  destruct (prompt_and_context_returned raw Hpc)
    as [[Hin [-> ->]] | [Hin [Hraw [Hp Hc]]]]; rewrite Hin.
  - reflexivity.
  - rewrite Hraw, append_assoc. reflexivity.
Qed.

(** X5. The base pattern is never longer than 50 characters nor shorter than
    the 26 of its fixed part, however long the prompt is: at most 12
    characters of the base prompt go into it, each escaped into at most
    two. *)
Theorem set_base_prompt_pattern_length (self : CiscoAsa W) (prompt : string) :
  let r := _set_base_prompt self in
  result r = Returned prompt ->
  26 <= String.length (_base_pattern (self_after r)) <= 50 /\
  String.length (_base_pattern (self_after r))
  <= 2 * String.length prompt + 26.
Proof.
  intros r. subst r. rewrite set_base_prompt_run. cbv zeta.
  destruct (_find_prompt self) as [[e | raw] w]; cbn [fst snd result]; [discriminate|].
  destruct (prompt_and_context raw) as [[p c] | e]; cbn [result self_after];
    [|discriminate].
  intros [= <-]. cbn [_base_pattern with_base_pattern].
  unfold pattern_for. rewrite length_append.
  change (String.length (".*(\/\w+)?(\(.*?\))?[" ++ Re.escape ">" ++ "|" ++ Re.escape "#" ++ "]"))
    with 26.
  pose proof (length_escape (take 12 p)) as Hesc.
  pose proof (length_take 12 p) as Htake.
  assert (Hpref : String.length (take 12 p) <= String.length p).
  { clear. generalize 12. intros n. revert p.
    induction n as [|n IH]; intros [|c p]; simpl; try lia.
    specialize (IH p). lia. }
  lia.
Qed.

(** X6. Two successful runs leave the same base pattern exactly when the base
    prompts they stored agree on their first 12 characters; what follows
    the 12th character of a prompt has no part in the pattern. *)
Theorem set_base_prompt_pattern_prefix_only
    (self1 self2 : CiscoAsa W) (prompt1 prompt2 : string) :
  let r1 := _set_base_prompt self1 in
  let r2 := _set_base_prompt self2 in
  result r1 = Returned prompt1 ->
  result r2 = Returned prompt2 ->
  (_base_pattern (self_after r1) = _base_pattern (self_after r2) <->
   take 12 prompt1 = take 12 prompt2).
Proof.
  intros r1 r2. subst r1 r2. rewrite !set_base_prompt_run. cbv zeta.
  destruct (_find_prompt self1) as [[e1 | raw1] w1]; cbn [fst snd result]; [discriminate|].
  destruct (prompt_and_context raw1) as [[p1 c1] | e1]; cbn [result self_after];
    [|discriminate].
  destruct (_find_prompt self2) as [[e2 | raw2] w2]; cbn [fst snd result]; [discriminate|].
  destruct (prompt_and_context raw2) as [[p2 c2] | e2]; cbn [result self_after];
    [|discriminate].
  intros [= <-] [= <-]. cbn [_base_pattern with_base_pattern].
  unfold pattern_for. split.
  - intros H. apply append_cancel_r in H. now apply escape_inj.
  - now intros ->.
Qed.

(** X7. For a base prompt with no special character in its first 12
    characters, the pattern is those characters as they are, followed by
    the fixed part. *)
Theorem set_base_prompt_pattern_plain (self : CiscoAsa W) (prompt : string) :
  let r := _set_base_prompt self in
  result r = Returned prompt ->
  forallb (fun c => negb (Re.is_special c)) (list_ascii_of_string (take 12 prompt)) = true ->
  _base_pattern (self_after r) = take 12 prompt ++ pattern_tail.
Proof.
  intros r. subst r. rewrite set_base_prompt_run. cbv zeta.
  destruct (_find_prompt self) as [[e | raw] w]; cbn [fst snd result]; [discriminate|].
  destruct (prompt_and_context raw) as [[p c] | e]; cbn [result self_after];
    [|discriminate].
  intros [= <-] Hplain. cbn [_base_pattern with_base_pattern].
  unfold pattern_for. now rewrite (escape_plain _ Hplain).
Qed.

End MoreParser.

(** ** More about the catalog *)

Section MoreCatalog.

Variable E : Type.

Lemma getitem_first_entry (mapping : list (string * string)) (key value : string) :
  NoDup (map fst mapping) -> In (key, value) mapping ->
  @getitem E mapping key = Returned value.
Proof.
  induction mapping as [|[k v] rest IH]; intros Hnodup Hin; [contradiction|].
  cbn [map fst] in Hnodup. inversion Hnodup as [|? ? Hfresh Hrest]; subst.
  cbn [getitem]. destruct Hin as [[= -> ->] | Hin].
  - now rewrite String.eqb_refl.
  - destruct (String.eqb_spec k key) as [-> | _]; [|now apply IH].
    exfalso. apply Hfresh. apply (in_map fst) in Hin. exact Hin.
Qed.

Lemma command_mapper_keys_distinct : NoDup (map fst command_mapper).
Proof.
  cbn. repeat constructor; cbn; intros H;
    repeat (destruct H as [H | H]; [discriminate|]); exact H.
Qed.

(** X8. No key of the mapping is written twice, so every entry is found under
    its own key: the lookup of a key gives the value written next to it. *)
Theorem get_default_command_entries (command value : string) :
  In (command, value) command_mapper ->
  @_get_default_command E command = Returned value.
Proof.
  apply getitem_first_entry, command_mapper_keys_distinct.
Qed.

End MoreCatalog.

(** ** More about the session controller *)

Section MoreController.

Variables W E : Type.
Context {base : CiscoLikeDevice W E}.

Import PyStr.
Local Open Scope string_scope.

(** One run of [connect], step by step. *)
Lemma connect_run (self : CiscoAsa W) :
  connect self =
  match _establish_connection self with
  | (inl e, w1) =>
      mkRun (Raised (BaseError e)) (with_transport w1 self) [EstablishConnection]
  | (inr _, w1) =>
  match _set_base_prompt (with_transport w1 self) with
  | mkRun (Raised e) s2 cs => mkRun (Raised e) s2 (EstablishConnection :: cs)
  | mkRun (Returned _) s2 cs =>
  match _enable s2 with
  | (inl e, w3) =>
      mkRun (Raised (BaseError e)) (with_transport w3 s2)
            (EstablishConnection :: cs ++ [Enable])
  | (inr _, w3) =>
  match _disable_paging (with_transport w3 s2) with
  | (inl e, w4) =>
      mkRun (Raised (BaseError e)) (with_transport w4 (with_transport w3 s2))
            (EstablishConnection :: cs ++ [Enable; DisablePaging])
  | (inr _, w4) =>
  match _check_multiple_mode (with_transport w4 (with_transport w3 s2)) with
  | mkRun o s5 cs' =>
      mkRun o s5 (EstablishConnection :: cs ++ Enable :: DisablePaging :: cs')
  end end end end end.
Proof.
  unfold connect, bind, call_base.
  destruct (_establish_connection self) as [[e1 | []] w1]; [reflexivity|].
  destruct (_set_base_prompt (with_transport w1 self)) as [[prompt | e2] s2 cs];
    [|reflexivity].
  destruct (_enable s2) as [[e3 | []] w3]; [reflexivity|].
  destruct (_disable_paging (with_transport w3 s2)) as [[e4 | []] w4]; [reflexivity|].
  now destruct (_check_multiple_mode (with_transport w4 (with_transport w3 s2))).
Qed.

Lemma set_base_prompt_consistent (self : CiscoAsa W) :
  pattern_consistent self \/ (exists prompt, result (_set_base_prompt self) = Returned prompt) ->
  pattern_consistent (self_after (_set_base_prompt self)).
Proof.
  rewrite set_base_prompt_run. cbv zeta. unfold pattern_consistent.
  destruct (_find_prompt self) as [[e | raw] w]; cbn [fst snd result self_after].
  - intros [H | [p H]]; [exact H | discriminate].
  - destruct (prompt_and_context raw) as [[p c] | e]; cbn [result self_after].
    + intros _. reflexivity.
    + intros [H | [p H]]; [exact H | discriminate].
Qed.

Lemma check_multiple_mode_prompt_attributes (self : CiscoAsa W) :
  let self' := self_after (_check_multiple_mode self) in
  _base_prompt self' = _base_prompt self /\
  _base_pattern self' = _base_pattern self /\
  _current_context self' = _current_context self /\
  _host self' = _host self /\
  (_multiple_mode self = true -> _multiple_mode self' = true) /\
  (_multiple_mode self' = true ->
   _multiple_mode self = true \/ result (_check_multiple_mode self) = Returned tt).
Proof.
  rewrite check_multiple_mode_run. cbv zeta.
  destruct (super_send_command "show mode" true true self) as [[e | out] w];
    cbn [self_after result]; [now repeat split; auto|].
  destruct (str_in "multiple" out); repeat split; auto.
Qed.

(** X9. A successful [_set_base_prompt], and a successful [connect], leave a
    base pattern that is the one derived from the base prompt they leave,
    whatever the two attributes were before. *)
Theorem pattern_consistent_established (self : CiscoAsa W) :
  (forall prompt, result (_set_base_prompt self) = Returned prompt ->
     pattern_consistent (self_after (_set_base_prompt self))) /\
  (result (connect self) = Returned tt ->
     pattern_consistent (self_after (connect self))).
Proof.
  split.
  - intros prompt H. apply set_base_prompt_consistent. right. now exists prompt.
  - rewrite connect_run.
    destruct (_establish_connection self) as [[e1 | []] w1]; [discriminate|].
    pose proof (@set_base_prompt_consistent (with_transport w1 self)) as Hcons.
    destruct (_set_base_prompt (with_transport w1 self)) as [[prompt | e2] s2 cs];
      [|discriminate].
    cbn [result self_after] in Hcons.
    assert (Hs2 : pattern_consistent s2) by (apply Hcons; right; now exists prompt).
    destruct (_enable s2) as [[e3 | []] w3]; [discriminate|].
    destruct (_disable_paging (with_transport w3 s2)) as [[e4 | []] w4]; [discriminate|].
    pose proof (check_multiple_mode_prompt_attributes
                  (with_transport w4 (with_transport w3 s2))) as Hcheck.
    destruct (_check_multiple_mode (with_transport w4 (with_transport w3 s2)))
      as [o s5 cs'].
    cbn in Hcheck. destruct Hcheck as [Hp [Hpat _]].
    intros _. cbn [self_after]. unfold pattern_consistent in *.
    now rewrite Hp, Hpat.
Qed.

(** X10. No method breaks the tie between base prompt and base pattern, whether
    it returns or raises: when the pattern is the one derived from the base
    prompt before [_set_base_prompt], [send_command],
    [_check_multiple_mode] or [connect], it is so afterwards. *)
Theorem pattern_consistent_preserved (self : CiscoAsa W) :
  pattern_consistent self ->
  pattern_consistent (self_after (_set_base_prompt self)) /\
  (forall cmd sp sc, pattern_consistent (self_after (send_command cmd sp sc self))) /\
  pattern_consistent (self_after (_check_multiple_mode self)) /\
  pattern_consistent (self_after (connect self)).
Proof.
  intros Hself. split; [apply set_base_prompt_consistent; now left|].
  split; [|split].
  - intros cmd sp sc. rewrite send_command_run. cbv zeta.
    destruct (super_send_command cmd sp sc self) as [[e | output] w]; [exact Hself|].
    destruct (str_in "changet" cmd); [|exact Hself].
    cbn [self_after]. apply set_base_prompt_consistent. now left.
  - destruct (check_multiple_mode_prompt_attributes self) as [Hp [Hpat _]].
    unfold pattern_consistent in *. now rewrite Hp, Hpat.
  - rewrite connect_run.
    destruct (_establish_connection self) as [[e1 | []] w1]; [exact Hself|].
    pose proof (@set_base_prompt_consistent (with_transport w1 self) (or_introl Hself))
      as Hs2.
    destruct (_set_base_prompt (with_transport w1 self)) as [[prompt | e2] s2 cs];
      cbn [self_after] in Hs2; [|exact Hs2].
    destruct (_enable s2) as [[e3 | []] w3]; [exact Hs2|].
    destruct (_disable_paging (with_transport w3 s2)) as [[e4 | []] w4]; [exact Hs2|].
    pose proof (check_multiple_mode_prompt_attributes
                  (with_transport w4 (with_transport w3 s2))) as Hcheck.
    destruct (_check_multiple_mode (with_transport w4 (with_transport w3 s2)))
      as [o s5 cs'].
    cbn in Hcheck. destruct Hcheck as [Hp [Hpat _]].
    cbn [self_after]. unfold pattern_consistent in *. now rewrite Hp, Hpat.
Qed.

Lemma set_base_prompt_keeps_host (self : CiscoAsa W) :
  _host (self_after (_set_base_prompt self)) = _host self.
Proof.
  rewrite set_base_prompt_run.
  destruct (_find_prompt self) as [[e | raw] w]; cbn [fst snd]; [reflexivity|].
  now destruct (prompt_and_context raw) as [[p c] | e].
Qed.

Lemma set_base_prompt_raised (self : CiscoAsa W) (e : exn E) :
  result (_set_base_prompt self) = Raised e ->
  _current_context (self_after (_set_base_prompt self)) = _current_context self /\
  _base_prompt (self_after (_set_base_prompt self)) = _base_prompt self /\
  _base_pattern (self_after (_set_base_prompt self)) = _base_pattern self.
Proof.
  rewrite set_base_prompt_run. cbv zeta.
  destruct (_find_prompt self) as [[e' | raw] w]; cbn [fst snd];
    [intros _; now repeat split|].
  destruct (prompt_and_context raw) as [[p c] | e'']; cbn [result self_after];
    [discriminate|].
  intros _. now repeat split.
Qed.

Lemma send_command_keeps_mode_and_host
    (self : CiscoAsa W) (cmd : string) (sp sc : bool) :
  _multiple_mode (self_after (send_command cmd sp sc self)) = _multiple_mode self /\
  _host (self_after (send_command cmd sp sc self)) = _host self.
Proof.
  rewrite send_command_run. cbv zeta.
  destruct (super_send_command cmd sp sc self) as [[e | output] w];
    [now split|].
  destruct (str_in "changet" cmd); [|now split].
  cbn [self_after].
  now rewrite set_base_prompt_keeps_mode, set_base_prompt_keeps_host.
Qed.

(** X11. The context follows the device.  When a command with ["changet"] in it
    has been answered and the prompt read after it is [NAME/CTX] and a last
    character, [send_command] returns the output of the command and the
    object is in context [CTX] with base prompt [NAME]; when that prompt
    has no slash, the object is back in context ["system"]. *)
Theorem send_command_tracks_context
    (self : CiscoAsa W) (cmd : string) (sp sc : bool) (output raw : string) (w w' : W) :
  str_in "changet" cmd = true ->
  super_send_command cmd sp sc self = (inr output, w) ->
  _find_prompt (with_transport w self) = (inr raw, w') ->
  let r := send_command cmd sp sc self in
  (forall name ctx last,
     raw = name ++ "/" ++ ctx ++ String last EmptyString ->
     str_in "/" name = false -> str_in "/" ctx = false ->
     result r = Returned output /\
     _base_prompt (self_after r) = name /\
     current_context (self_after r) = ctx) /\
  (str_in "/" raw = false ->
     result r = Returned output /\
     _base_prompt (self_after r) = drop_last raw /\
     current_context (self_after r) = "system").
Proof.
  intros Hin Hsend Hfind r. subst r.
  rewrite send_command_run, Hsend, Hin. cbv zeta.
  rewrite set_base_prompt_run, Hfind. cbv zeta. cbn [fst snd].
  split.
  - intros name ctx last -> Hname Hctx.
    rewrite (prompt_and_context_one_slash E
               (name ++ "/" ++ ctx ++ String last EmptyString) name ctx).
    + now repeat split.
    + replace (name ++ "/" ++ ctx ++ String last EmptyString)
        with ((name ++ String "/" ctx) ++ String last EmptyString)
        by (now rewrite append_assoc).
      apply drop_last_snoc.
    + now apply str_in_char_false.
    + now apply str_in_char_false.
  - intros Hraw. rewrite (prompt_and_context_no_slash E raw Hraw).
    now repeat split.
Qed.

(** X12. [send_command] changes nothing but the transport and the three prompt
    attributes, and [_check_multiple_mode] nothing but the transport and
    [_multiple_mode]: the first leaves [_multiple_mode] and [_host] as they
    were, the second the base prompt, the base pattern, the context and
    [_host]; and this whether they return or raise. *)
Theorem methods_leave_other_attributes (self : CiscoAsa W) :
  (forall cmd sp sc,
     let self' := self_after (send_command cmd sp sc self) in
     _multiple_mode self' = _multiple_mode self /\ _host self' = _host self) /\
  (let self' := self_after (_check_multiple_mode self) in
   _base_prompt self' = _base_prompt self /\
   _base_pattern self' = _base_pattern self /\
   _current_context self' = _current_context self /\
   _host self' = _host self).
Proof.
  split.
  - intros cmd sp sc. apply send_command_keeps_mode_and_host.
  - destruct (check_multiple_mode_prompt_attributes self) as [H1 [H2 [H3 [H4 _]]]].
    now repeat split.
Qed.

(** X13. Nothing sets [_multiple_mode] back to [False]: once it is [True] it is
    [True] after each of the four methods, whatever the device answers to
    ["show mode"] and whether the method returns or raises. *)
Theorem multiple_mode_never_reset (self : CiscoAsa W) :
  multiple_mode self = true ->
  multiple_mode (self_after (_set_base_prompt self)) = true /\
  (forall cmd sp sc, multiple_mode (self_after (send_command cmd sp sc self)) = true) /\
  multiple_mode (self_after (_check_multiple_mode self)) = true /\
  multiple_mode (self_after (connect self)) = true.
Proof.
  unfold multiple_mode. intros Hmode.
  split; [now rewrite set_base_prompt_keeps_mode|].
  split; [|split].
  - intros cmd sp sc.
    destruct (send_command_keeps_mode_and_host self cmd sp sc) as [-> _].
    exact Hmode.
  - now apply check_multiple_mode_prompt_attributes.
  - rewrite connect_run.
    destruct (_establish_connection self) as [[e1 | []] w1]; [exact Hmode|].
    pose proof (set_base_prompt_keeps_mode (with_transport w1 self)) as Hkeep.
    destruct (_set_base_prompt (with_transport w1 self)) as [[prompt | e2] s2 cs];
      cbn [self_after] in *; [|now rewrite Hkeep].
    cbn in Hkeep. rewrite <- Hkeep in Hmode.
    destruct (_enable s2) as [[e3 | []] w3]; [exact Hmode|].
    destruct (_disable_paging (with_transport w3 s2)) as [[e4 | []] w4]; [exact Hmode|].
    pose proof (check_multiple_mode_prompt_attributes
                  (with_transport w4 (with_transport w3 s2))) as Hcheck.
    destruct (_check_multiple_mode (with_transport w4 (with_transport w3 s2)))
      as [o s5 cs'].
    cbn in Hcheck. cbn [self_after]. now apply Hcheck.
Qed.

(** X14. A new object whose [connect] raises is not in multiple mode, and as
    long as the privileged mode has not been asked for (the failure came
    with the connection or with the prompt) its context is still
    ["system"] and its base prompt and pattern are those the constructor
    of the base class left. *)
Theorem connect_new_object_failure (self0 : CiscoAsa W) :
  let r := connect (__init__ self0) in
  (forall e, result r = Raised e -> multiple_mode (self_after r) = false) /\
  (forall e, result r = Raised e -> ~ In Enable (calls r) ->
     current_context (self_after r) = "system" /\
     _base_prompt (self_after r) = _base_prompt self0 /\
     _base_pattern (self_after r) = _base_pattern self0).
Proof.
  cbv zeta. unfold multiple_mode, current_context. rewrite connect_run.
  destruct (_establish_connection (__init__ self0)) as [[e1 | []] w1];
    [split; intros; now repeat split|].
  pose proof (set_base_prompt_keeps_mode (with_transport w1 (__init__ self0))) as Hkeep.
  pose proof (@set_base_prompt_raised (with_transport w1 (__init__ self0)))
    as Hfail.
  destruct (_set_base_prompt (with_transport w1 (__init__ self0)))
    as [[prompt | e2] s2 cs]; cbn [self_after result] in *.
  2:{ split; [intros e _; exact Hkeep|].
      intros e _ _. destruct (Hfail e2 eq_refl) as [H1 [H2 H3]].
      now rewrite H1, H2, H3. }
  destruct (_enable s2) as [[e3 | []] w3].
  { split; [intros e _; exact Hkeep|].
    intros e _ Hnot. exfalso. apply Hnot. cbn [calls].
    right. apply in_or_app. right. now left. }
  destruct (_disable_paging (with_transport w3 s2)) as [[e4 | []] w4].
  { split; [intros e _; exact Hkeep|].
    intros e _ Hnot. exfalso. apply Hnot. cbn [calls].
    right. apply in_or_app. right. now left. }
  pose proof (check_multiple_mode_prompt_attributes
                (with_transport w4 (with_transport w3 s2))) as Hcheck.
  destruct (_check_multiple_mode (with_transport w4 (with_transport w3 s2)))
    as [o s5 cs'].
  cbn in Hcheck. cbn [self_after result calls]. split.
  - intros e ->. destruct Hcheck as [_ [_ [_ [_ [_ Hback]]]]].
    destruct (_multiple_mode s5) eqn:Hs5; [|reflexivity].
    destruct (Hback eq_refl) as [H | H]; [|discriminate].
    cbn in Hkeep. congruence.
  - intros e _ Hnot. exfalso. apply Hnot.
    right. apply in_or_app. right. now left.
Qed.

End MoreController.

(** ** Further runs on the scripted device *)

Section MoreRuns.

Import PyStr.
Local Open Scope string_scope.

Lemma set_base_prompt_failure_keeps_attributes_witness :
  let self := Scripted.used ["fw/a/b#"] in
  let r := _set_base_prompt self in
  result r = Raised ValueError /\
  _base_prompt (self_after r) = "ciscoasa" /\
  _current_context (self_after r) = "admin" /\
  _transport (self_after r) = [].
Proof.
  intros self r.
  destruct (@set_base_prompt_failure_keeps_attributes _ _ Scripted.device self
              ValueError eq_refl) as [Hafter [Hprompt [_ [Hcontext _]]]].
  split; [reflexivity|]. split; [exact Hprompt|]. split; [exact Hcontext|].
  fold r in Hafter. rewrite Hafter. reflexivity.
Defined.

Lemma set_base_prompt_depends_on_raw_only_witness :
  let r1 := _set_base_prompt (Scripted.fresh ["ciscoasa/ctx1#"]) in
  let r2 := _set_base_prompt (Scripted.used ["ciscoasa/ctx1#"; "more"]) in
  result r1 = result r2 /\
  _base_prompt (self_after r1) = _base_prompt (self_after r2) /\
  _current_context (self_after r1) = _current_context (self_after r2) /\
  _base_pattern (self_after r1) = _base_pattern (self_after r2).
Proof.
  intros r1 r2.
  destruct (@set_base_prompt_depends_on_raw_only _ _ Scripted.device
              (Scripted.fresh ["ciscoasa/ctx1#"]) (Scripted.used ["ciscoasa/ctx1#"; "more"])
              "ciscoasa/ctx1#" [] ["more"] eq_refl eq_refl) as [Hresult Hattrs].
  split; [exact Hresult|]. exact (Hattrs "ciscoasa" eq_refl).
Defined.

Lemma set_base_prompt_parts_have_no_slash_witness :
  let r := _set_base_prompt (Scripted.fresh ["ciscoasa/admin#"]) in
  _base_prompt (self_after r) = "ciscoasa" /\
  str_in "/" (_base_prompt (self_after r)) = false /\
  str_in "/" (_current_context (self_after r)) = false.
Proof.
  apply (@set_base_prompt_parts_have_no_slash _ _ Scripted.device
           (Scripted.fresh ["ciscoasa/admin#"]) "ciscoasa").
  reflexivity.
Defined.

Lemma set_base_prompt_round_trip_witness :
  let r := _set_base_prompt (Scripted.fresh ["ciscoasa/admin(config)#"]) in
  "ciscoasa/admin(config)#"
  = "ciscoasa" ++ "/" ++ _current_context (self_after r) ++ "#".
Proof.
  apply (@set_base_prompt_round_trip _ _ Scripted.device
           (Scripted.fresh ["ciscoasa/admin(config)#"]) "ciscoasa/admin(config)#"
           "ciscoasa" [] "#"%char);
    reflexivity.
Defined.

Lemma set_base_prompt_pattern_length_witness :
  let r := _set_base_prompt (Scripted.fresh ["(((((((((((((a-very-long-prompt)))))))))))))>"]) in
  String.length (_base_pattern (self_after r)) = 50 /\
  26 <= String.length (_base_pattern (self_after r)) <= 50.
Proof.
  split; [reflexivity|].
  apply (@set_base_prompt_pattern_length _ _ Scripted.device
           (Scripted.fresh ["(((((((((((((a-very-long-prompt)))))))))))))>"])
           "(((((((((((((a-very-long-prompt)))))))))))))").
  reflexivity.
Defined.

Lemma set_base_prompt_pattern_prefix_only_witness :
  let r1 := _set_base_prompt (Scripted.fresh ["datacenter-fw-east#"]) in
  let r2 := _set_base_prompt (Scripted.fresh ["datacenter-fw-west#"]) in
  _base_prompt (self_after r1) <> _base_prompt (self_after r2) /\
  _base_pattern (self_after r1) = _base_pattern (self_after r2).
Proof.
  split; [discriminate|].
  apply (@set_base_prompt_pattern_prefix_only _ _ Scripted.device
           (Scripted.fresh ["datacenter-fw-east#"]) (Scripted.fresh ["datacenter-fw-west#"])
           "datacenter-fw-east" "datacenter-fw-west" eq_refl eq_refl).
  reflexivity.
Defined.

Lemma set_base_prompt_pattern_plain_witness :
  let r := _set_base_prompt (Scripted.fresh ["ciscoasa#"]) in
  _base_pattern (self_after r) = "ciscoasa" ++ pattern_tail.
Proof.
  apply (@set_base_prompt_pattern_plain _ _ Scripted.device
           (Scripted.fresh ["ciscoasa#"]) "ciscoasa");
    reflexivity.
Defined.

Lemma get_default_command_entries_witness :
  @_get_default_command Scripted.error "disable_paging" = Returned "terminal pager 0".
Proof.
  apply get_default_command_entries.
  cbn. do 3 right. left. reflexivity.
Defined.

Lemma pattern_consistent_established_witness :
  pattern_consistent (self_after (connect (Scripted.fresh ["ciscoasa#"; "single"]))).
Proof.
  apply (proj2 (@pattern_consistent_established _ _ Scripted.device
                  (Scripted.fresh ["ciscoasa#"; "single"]))).
  reflexivity.
Defined.

(** The refresh raises (two slashes) and the pattern still belongs to the
    base prompt. *)
Lemma pattern_consistent_preserved_witness :
  let r := send_command "changeto context a/b" true true (Scripted.used ["done"; "fw/a/b#"]) in
  result r = Raised ValueError /\ pattern_consistent (self_after r).
Proof.
  split; [reflexivity|].
  apply (proj1 (proj2 (@pattern_consistent_preserved _ _ Scripted.device
                         (Scripted.used ["done"; "fw/a/b#"]) eq_refl))).
Defined.

Lemma send_command_tracks_context_witness :
  let r := send_command "changeto context ctx1" true true
             (Scripted.used ["done"; "ciscoasa/ctx1#"]) in
  result r = Returned "done" /\
  _base_prompt (self_after r) = "ciscoasa" /\
  current_context (self_after r) = "ctx1".
Proof.
  apply (proj1 (@send_command_tracks_context _ _ Scripted.device
                  (Scripted.used ["done"; "ciscoasa/ctx1#"]) "changeto context ctx1" true true
                  "done" "ciscoasa/ctx1#" ["ciscoasa/ctx1#"] [] eq_refl eq_refl eq_refl)
               "ciscoasa" "ctx1" "#"%char);
    reflexivity.
Defined.

(** A second [connect], to a device that now answers [single]. *)
Lemma multiple_mode_never_reset_witness :
  let r := connect (Scripted.used ["ciscoasa#"; "Security context mode: single"]) in
  result r = Returned tt /\
  current_context (self_after r) = "system" /\
  multiple_mode (self_after r) = true.
Proof.
  split; [reflexivity|]. split; [reflexivity|].
  apply (@multiple_mode_never_reset _ _ Scripted.device
           (Scripted.used ["ciscoasa#"; "Security context mode: single"])).
  reflexivity.
Defined.

Lemma connect_new_object_failure_witness :
  let r := connect (Scripted.fresh []) in
  multiple_mode (self_after r) = false /\
  current_context (self_after r) = "system".
Proof.
  intros r.
  destruct (@connect_new_object_failure _ _ Scripted.device
              (mkCiscoAsa "fw" EmptyString EmptyString EmptyString false []))
    as [Hmode Hcontext].
  split.
  - exact (Hmode (BaseError Scripted.EndOfScript) eq_refl).
  - refine (proj1 (Hcontext (BaseError Scripted.EndOfScript) eq_refl _)).
    cbn. intros [H | [H | []]]; discriminate.
Defined.

End MoreRuns.
